(** * Anomaly service of the connected-vehicle backend

    A shallow embedding of [source/services/vehicle/lib/anomaly.js]: the three
    operations [listAnomaliesByVehicle], [getVehicleAnomaly] and
    [acknowledgeVehicleAnomaly], run against a model of the DynamoDB
    [DocumentClient] that keeps the two tables, a schedule of store faults and
    a log of every request the service sends. *)

From stdpp Require Import gmap strings list fin_maps.

(** ** JavaScript values *)

(** The values the service handles: tickets, request parameters, items read
    from the tables, store errors and what the callback receives are all plain
    JSON-like objects. Numbers are the integer ones (counts); arrays carry no
    named properties. *)
#[warnings="-register-all"]
Inductive value : Type :=
  | VUndefined
  | VNull
  | VBool (b : bool)
  | VNum (n : Z)
  | VStr (s : string)
  | VArr (xs : list value)
  | VObj (o : gmap string value).

(** A JavaScript object: own properties by name. *)
Abbreviation obj := (gmap string value).

(** [if (v)]: the truthiness test of the language. *)
Definition truthy (v : value) : bool :=
  match v with
  | VUndefined | VNull => false
  | VBool b => b
  | VNum n => negb (n =? 0)%Z
  | VStr s => negb (String.eqb s "")
  | VArr _ | VObj _ => true
  end.

(** [_.isEmpty(v)] of underscore: [null] and [undefined] are empty, a string
    or an array is empty when its length is 0, anything else when it has no
    own enumerable key (so numbers and booleans are empty). *)
Definition isEmpty (v : value) : bool :=
  match v with
  | VUndefined | VNull => true
  | VBool _ | VNum _ => true
  | VStr s => String.eqb s ""
  | VArr xs => Nat.eqb (length xs) 0
  | VObj o => Nat.eqb (size o) 0
  end.

(** [v.p] for a [v] that is neither [null] nor [undefined] (the service reads
    a property of a store answer only after [!_.isEmpty], which excludes
    both): a missing property reads as [undefined]. *)
Definition prop (v : value) (p : string) : value :=
  match v with
  | VObj o => default VUndefined (o !! p)
  | _ => VUndefined
  end.

(** The object literal [{error: {message: msg}}] the service builds for its
    own errors. *)
Definition error_message (msg : string) : value :=
  VObj {[ "error" := VObj {[ "message" := VStr msg ]} ]}.

Definition AuthorizationError : value :=
  error_message "The vehicle requested is not registered under the user.".

Definition NotFoundError : value :=
  error_message "The anomaly record requested does not exist.".

(** ** The store behind [AWS.DynamoDB.DocumentClient] *)

(** The two tables the module names: [ownerTable] (VEHICLE_OWNER_TBL) and
    [ddbTable] (VEHICLE_ANOMALY_TBL). *)
Inductive table_name : Type := ownerTable | ddbTable.

#[global] Instance table_name_eq_dec : EqDecision table_name.
Proof. solve_decision. Defined.

(** Hash and range key attribute of each table, as the [Key] objects and the
    key condition of the source name them. *)
Definition key_schema (t : table_name) : string * string :=
  match t with
  | ownerTable => ("owner_id", "vin")
  | ddbTable => ("vin", "anomaly_id")
  end.

(** The primary key an object carries for table [t]: both key attributes
    must be there and be strings. *)
Definition key_of (t : table_name) (o : obj) : option (string * string) :=
  match o !! (key_schema t).1, o !! (key_schema t).2 with
  | Some (VStr h), Some (VStr r) => Some (h, r)
  | _, _ => None
  end.

(** A request sent to the store. *)
Inductive access : Type :=
  | Get (t : table_name) (Key : obj)
  | Query (t : table_name) (hash : string)
  | Put (t : table_name) (Item : obj).

Definition access_table (a : access) : table_name :=
  match a with Get t _ | Query t _ | Put t _ => t end.

Definition is_put (a : access) : bool :=
  match a with Put _ _ => true | _ => false end.

(** The world the service runs in: the content of the two tables (primary
    key to item), the faults the store will raise ([faults] holds one entry
    per coming request, [Some e] making that request fail with the error
    object [e]; requests beyond the schedule are served), and the log of the
    requests sent so far, oldest first. *)
Record world : Type := World {
  owner_tbl : gmap (string * string) obj;
  anomaly_tbl : gmap (string * string) obj;
  faults : list (option obj);
  log : list access
}.

Definition tbl (t : table_name) (w : world) : gmap (string * string) obj :=
  match t with ownerTable => owner_tbl w | ddbTable => anomaly_tbl w end.

Definition set_tbl (t : table_name) (m : gmap (string * string) obj) (w : world) : world :=
  match t with
  | ownerTable => World m (anomaly_tbl w) (faults w) (log w)
  | ddbTable => World (owner_tbl w) m (faults w) (log w)
  end.

(** The fault scheduled for the next request. *)
Definition next_fault (w : world) : option obj :=
  match faults w with
  | Some e :: _ => Some e
  | _ => None
  end.

(** Sending request [a]: it is logged and its entry of the schedule is used
    up. *)
Definition sent (a : access) (w : world) : world :=
  World (owner_tbl w) (anomaly_tbl w) (tail (faults w)) (log w ++ [a]).

(** The error object of the store for a request whose key attributes do not
    fit the table, by its code (the message varies with the request). *)
Definition ValidationException : obj :=
  {[ "code" := VStr "ValidationException" ]}.

(** Stateful computations over the world. *)
Definition M (A : Type) : Type := world → A * world.

#[global] Instance M_ret : MRet M := λ A a w, (a, w).
#[global] Instance M_bind : MBind M :=
  λ A B f m w, let '(a, w1) := m w in f a w1.

(** What a [DocumentClient] call hands to its callback: [(err, data)], with
    [err] null on success and [data] null on failure. *)
Definition response : Type := value * value.

(** [docClient.get({TableName: t, Key: Key}, cb)]: on success [data] is
    [{Item: item}] when the key is present and [{}] when it is not. *)
Definition docClient_get (t : table_name) (Key : obj) : M response := λ w,
  let w1 := sent (Get t Key) w in
  match next_fault w with
  | Some e => ((VObj e, VNull), w1)
  | None =>
      match key_of t Key with
      | None => ((VObj ValidationException, VNull), w1)
      | Some k =>
          match tbl t w !! k with
          | Some item => ((VNull, VObj {[ "Item" := VObj item ]}), w1)
          | None => ((VNull, VObj ∅), w1)
          end
      end
  end.

(** The items of table [t] under hash key [h], in the order the store keeps
    them. *)
Definition items_of (t : table_name) (h : string) (w : world) : list obj :=
  (filter (λ kv, kv.1.1 = h) (map_to_list (tbl t w))).*2.

(** [docClient.query] with the key condition [<hash key> = :h]: [data] is the
    store's answer object, with the matching items under [Items] and their
    number under [Count] and [ScannedCount]. Answers are of one page: the
    model does not cut a result at the store's page size. *)
Definition docClient_query (t : table_name) (h : string) : M response := λ w,
  let w1 := sent (Query t h) w in
  match next_fault w with
  | Some e => ((VObj e, VNull), w1)
  | None =>
      let items := items_of t h w in
      ((VNull, VObj {[ "Items" := VArr (VObj <$> items);
                       "Count" := VNum (Z.of_nat (length items));
                       "ScannedCount" := VNum (Z.of_nat (length items)) ]}), w1)
  end.

(** [docClient.put({TableName: t, Item: Item}, cb)]: the item replaces
    whatever the table holds under the item's own key; [data] is [{}]. A put
    that reports an error has written nothing. *)
Definition docClient_put (t : table_name) (Item : obj) : M response := λ w,
  let w1 := sent (Put t Item) w in
  match next_fault w with
  | Some e => ((VObj e, VNull), w1)
  | None =>
      match key_of t Item with
      | None => ((VObj ValidationException, VNull), w1)
      | Some k => ((VNull, VObj ∅), set_tbl t (<[k := Item]> (tbl t w)) w1)
      end
  end.

(** ** The service *)

(** Each operation makes its [DocumentClient]s from the one module-wide
    configuration, so all its calls reach the same store; what it writes to
    the console on an error is left out.

    How an operation ends: it calls [cb(err, data)] once, or a [TypeError]
    escapes from the store callback. *)
Inductive outcome : Type :=
  | Cb (err data : value)
  | Thrown.

Definition cb (err data : value) : M outcome := mret (Cb err data).
Definition throw : M outcome := mret Thrown.

(** The [Key] of the ownership lookup, shared by the three operations:
    [{owner_id: ticket['cognito:username'], vin: vin}]. *)
Definition owner_key (ticket : obj) (vin : string) : obj :=
  {[ "owner_id" := default VUndefined (ticket !! "cognito:username");
     "vin" := VStr vin ]}.

(** The [Key] of an anomaly record: [{vin: vin, anomaly_id: anomalyId}]. *)
Definition anomaly_key (vin anomalyId : string) : obj :=
  {[ "vin" := VStr vin; "anomaly_id" := VStr anomalyId ]}.

Definition listAnomaliesByVehicle (ticket : obj) (vin : string) : M outcome :=
  '(err, data) ← docClient_get ownerTable (owner_key ticket vin);
  if truthy err then cb err VNull
  else if negb (isEmpty data) then
    '(err, anomaly_data) ← docClient_query ddbTable vin;
    if truthy err then cb err VNull
    else cb VNull anomaly_data
  else cb AuthorizationError VNull.

Definition getVehicleAnomaly (ticket : obj) (vin anomalyId : string) : M outcome :=
  '(err, data) ← docClient_get ownerTable (owner_key ticket vin);
  if truthy err then cb err VNull
  else if negb (isEmpty data) then
    '(err, anomaly_data) ← docClient_get ddbTable (anomaly_key vin anomalyId);
    if truthy err then cb err VNull
    else if negb (isEmpty anomaly_data) then cb VNull (prop anomaly_data "Item")
    else cb NotFoundError VNull
  else cb AuthorizationError VNull.

(** [anomaly_data.Item.acknowledged = true] changes the item in place, and
    the same object is then put and handed to the callback. Under
    ['use strict'] the assignment raises a [TypeError] when [Item] is missing
    or a primitive; an item is never an array. *)
Definition acknowledgeVehicleAnomaly (ticket : obj) (vin anomalyId : string) : M outcome :=
  '(err, data) ← docClient_get ownerTable (owner_key ticket vin);
  if truthy err then cb err VNull
  else if negb (isEmpty data) then
    '(err, anomaly_data) ← docClient_get ddbTable (anomaly_key vin anomalyId);
    if truthy err then cb err VNull
    else if negb (isEmpty anomaly_data) then
      match prop anomaly_data "Item" with
      | VObj item =>
          let Item := <[ "acknowledged" := VBool true ]> item in
          '(err, data) ← docClient_put ddbTable Item;
          if truthy err then cb err VNull
          else cb VNull (VObj Item)
      | _ => throw
      end
    else cb NotFoundError VNull
  else cb AuthorizationError VNull.

(** ** The scenario of the specification *)

Definition alice : obj := {[ "cognito:username" := VStr "alice" ]}.
Definition bob : obj := {[ "cognito:username" := VStr "bob" ]}.

Definition A1 : obj :=
  {[ "vin" := VStr "VIN123"; "anomaly_id" := VStr "A1";
     "acknowledged" := VBool false; "code" := VStr "P0171" ]}.

Definition B7 : obj :=
  {[ "vin" := VStr "VIN999"; "anomaly_id" := VStr "B7";
     "acknowledged" := VBool false; "code" := VStr "P0300" ]}.

Definition fleet : world :=
  {| owner_tbl := {[ ("alice", "VIN123") :=
                       {[ "owner_id" := VStr "alice"; "vin" := VStr "VIN123" ]} ]};
     anomaly_tbl := {[ ("VIN123", "A1") := A1; ("VIN999", "B7") := B7 ]};
     faults := [];
     log := [] |}.

(** The error object of a store that throttles a request. *)
Definition Throttled : obj :=
  {[ "code" := VStr "ProvisionedThroughputExceededException";
     "message" := VStr "The level of configured provisioned throughput for the table was exceeded.";
     "retryable" := VBool true ]}.

Definition with_faults (fs : list (option obj)) (w : world) : world :=
  World (owner_tbl w) (anomaly_tbl w) fs (log w).


Definition quiet_fleet : world :=
  World (owner_tbl fleet) {[ ("VIN999", "B7") := B7 ]} [] [].

(** ** Predicates of the statements *)

(** The store serves the next [n] requests: none of them is scheduled to fail. *)
Fixpoint calm (n : nat) (fs : list (option obj)) : Prop :=
  match n, fs with
  | 0, _ => True
  | S _, [] => True
  | S n', None :: fs' => calm n' fs'
  | S _, Some _ :: _ => False
  end.

(** Every item of table [t] sits under the key its own key attributes spell:
    the store never holds an item elsewhere. *)
Definition wf_tbl (t : table_name) (w : world) : Prop :=
  map_Forall (λ k item, key_of t item = Some k) (tbl t w).

(** The number of requests sent to the anomaly table so far. *)
Definition anomaly_calls (w : world) : nat :=
  length (filter (λ a, access_table a = ddbTable) (log w)).

(** An error of the service's own making: [{error: {message: msg}}]. *)
Definition structured (err : value) : Prop := ∃ msg, err = error_message msg.

(** [e] is an error object of the store's: a fault of the schedule, or the
    store's refusal of a malformed key. *)
Definition raised_by_store (e : obj) (w : world) : Prop :=
  Some e ∈ faults w ∨ e = ValidationException.

(** Both tables of [w'] hold what they hold in [w]. *)
Definition same_tables (w w' : world) : Prop :=
  owner_tbl w' = owner_tbl w ∧ anomaly_tbl w' = anomaly_tbl w.

(** [err] is an error object of the store's, handed on as the store gave it. *)
Definition passed_on (err : value) (w : world) : Prop :=
  ∃ e, err = VObj e ∧ raised_by_store e w.

(** How a run of [acknowledgeVehicleAnomaly] from [w] can end: at the
    ownership lookup (store error, or no record), at the anomaly read (store
    error, or no record), or at the put (store error, or the record written). *)
Inductive acknowledge_run (ticket : obj) (vin anomalyId : string) (w : world) :
    outcome * world → Prop :=
  | ack_lookup_failed e :
      raised_by_store e w →
      acknowledge_run ticket vin anomalyId w
        (Cb (VObj e) VNull, sent (Get ownerTable (owner_key ticket vin)) w)
  | ack_not_owner :
      acknowledge_run ticket vin anomalyId w
        (Cb AuthorizationError VNull, sent (Get ownerTable (owner_key ticket vin)) w)
  | ack_read_failed owner e :
      docClient_get ownerTable (owner_key ticket vin) w =
        ((VNull, VObj {[ "Item" := VObj owner ]}),
         sent (Get ownerTable (owner_key ticket vin)) w) →
      raised_by_store e w →
      acknowledge_run ticket vin anomalyId w
        (Cb (VObj e) VNull,
         sent (Get ddbTable (anomaly_key vin anomalyId))
           (sent (Get ownerTable (owner_key ticket vin)) w))
  | ack_not_found owner :
      docClient_get ownerTable (owner_key ticket vin) w =
        ((VNull, VObj {[ "Item" := VObj owner ]}),
         sent (Get ownerTable (owner_key ticket vin)) w) →
      acknowledge_run ticket vin anomalyId w
        (Cb NotFoundError VNull,
         sent (Get ddbTable (anomaly_key vin anomalyId))
           (sent (Get ownerTable (owner_key ticket vin)) w))
  | ack_put_failed owner item e :
      docClient_get ownerTable (owner_key ticket vin) w =
        ((VNull, VObj {[ "Item" := VObj owner ]}),
         sent (Get ownerTable (owner_key ticket vin)) w) →
      docClient_get ddbTable (anomaly_key vin anomalyId)
          (sent (Get ownerTable (owner_key ticket vin)) w) =
        ((VNull, VObj {[ "Item" := VObj item ]}),
         sent (Get ddbTable (anomaly_key vin anomalyId))
           (sent (Get ownerTable (owner_key ticket vin)) w)) →
      raised_by_store e w →
      acknowledge_run ticket vin anomalyId w
        (Cb (VObj e) VNull,
         sent (Put ddbTable (<[ "acknowledged" := VBool true ]> item))
           (sent (Get ddbTable (anomaly_key vin anomalyId))
              (sent (Get ownerTable (owner_key ticket vin)) w)))
  | ack_written owner item k :
      docClient_get ownerTable (owner_key ticket vin) w =
        ((VNull, VObj {[ "Item" := VObj owner ]}),
         sent (Get ownerTable (owner_key ticket vin)) w) →
      docClient_get ddbTable (anomaly_key vin anomalyId)
          (sent (Get ownerTable (owner_key ticket vin)) w) =
        ((VNull, VObj {[ "Item" := VObj item ]}),
         sent (Get ddbTable (anomaly_key vin anomalyId))
           (sent (Get ownerTable (owner_key ticket vin)) w)) →
      anomaly_tbl w !! (vin, anomalyId) = Some item →
      key_of ddbTable (<[ "acknowledged" := VBool true ]> item) = Some k →
      acknowledge_run ticket vin anomalyId w
        (Cb VNull (VObj (<[ "acknowledged" := VBool true ]> item)),
         set_tbl ddbTable
           (<[ k := <[ "acknowledged" := VBool true ]> item ]> (anomaly_tbl w))
           (sent (Put ddbTable (<[ "acknowledged" := VBool true ]> item))
              (sent (Get ddbTable (anomaly_key vin anomalyId))
                 (sent (Get ownerTable (owner_key ticket vin)) w)))).

(** The requests sent between [w] and a later world [w']. *)
Definition requests (w w' : world) : list access :=
  drop (length (log w)) (log w').

(** The answer object of a query that found [items]. *)
Definition query_output (items : list obj) : value :=
  VObj {[ "Items" := VArr (VObj <$> items);
          "Count" := VNum (Z.of_nat (length items));
          "ScannedCount" := VNum (Z.of_nat (length items)) ]}.

#[global] Instance wf_tbl_dec t w : Decision (wf_tbl t w).
Proof. unfold wf_tbl. apply _. Defined.

(** Unfolding an operation down to its store calls. *)
Ltac run := unfold listAnomaliesByVehicle, getVehicleAnomaly, acknowledgeVehicleAnomaly,
  cb, throw, mbind, M_bind, mret, M_ret.

(** ** Basic facts *)

Lemma calm_next_fault n w : calm (S n) (faults w) → next_fault w = None.
Proof. unfold next_fault. by destruct (faults w) as [|[e|] fs]. Qed.

Lemma calm_sent n a w : calm (S n) (faults w) → calm n (faults (sent a w)).
Proof. simpl. destruct (faults w) as [|[e|] fs]; simpl; [by destruct n | done | done]. Qed.

Lemma key_of_owner_key ticket u vin :
  ticket !! "cognito:username" = Some (VStr u) →
  key_of ownerTable (owner_key ticket vin) = Some (u, vin).
Proof.
  intros Hu. unfold key_of, owner_key. simpl. rewrite Hu. simpl.
  rewrite lookup_insert_eq, lookup_insert_ne by done.
  by rewrite lookup_singleton_eq.
Qed.

Lemma key_of_anomaly_key vin anomalyId :
  key_of ddbTable (anomaly_key vin anomalyId) = Some (vin, anomalyId).
Proof.
  unfold key_of, anomaly_key. simpl.
  rewrite lookup_insert_eq, lookup_insert_ne by done.
  by rewrite lookup_singleton_eq.
Qed.

(** A served [get] answers with the table's content under the key. *)
Lemma docClient_get_served t Key k w :
  next_fault w = None → key_of t Key = Some k →
  docClient_get t Key w =
    ((VNull, match tbl t w !! k with
             | Some item => VObj {[ "Item" := VObj item ]}
             | None => VObj ∅
             end), sent (Get t Key) w).
Proof. intros Hf Hk. unfold docClient_get. rewrite Hf, Hk. by destruct (tbl t w !! k). Qed.

(** The three ways a [get] can end. *)
Lemma docClient_get_cases t Key w :
  (∃ e, docClient_get t Key w = ((VObj e, VNull), sent (Get t Key) w) ∧ raised_by_store e w) ∨
  docClient_get t Key w = ((VNull, VObj ∅), sent (Get t Key) w) ∨
  (∃ k item, key_of t Key = Some k ∧ tbl t w !! k = Some item ∧
     docClient_get t Key w = ((VNull, VObj {[ "Item" := VObj item ]}), sent (Get t Key) w)).
Proof.
  unfold docClient_get, raised_by_store, next_fault.
  destruct (faults w) as [|[e|] fs] eqn:Hfs.
  - destruct (key_of t Key) as [k|]; [|left; eauto].
    destruct (tbl t w !! k) as [item|] eqn:Hk; [right; right; eauto | by right; left].
  - left. exists e. split; [done|]. left. apply list_elem_of_here.
  - destruct (key_of t Key) as [k|]; [|left; eauto].
    destruct (tbl t w !! k) as [item|] eqn:Hk; [right; right; eauto | by right; left].
Qed.

(** *** Requests that only read *)

Lemma same_tables_trans w1 w2 w3 :
  same_tables w1 w2 → same_tables w2 w3 → same_tables w1 w3.
Proof. intros [? ?] [? ?]. split; congruence. Qed.

Lemma docClient_get_world t Key w : (docClient_get t Key w).2 = sent (Get t Key) w.
Proof. unfold docClient_get. by repeat case_match. Qed.

Lemma docClient_query_world t h w : (docClient_query t h w).2 = sent (Query t h) w.
Proof. unfold docClient_query. by case_match. Qed.

Lemma docClient_get_same_tables t Key w r w1 :
  docClient_get t Key w = (r, w1) → same_tables w w1.
Proof. intros H. pose proof (docClient_get_world t Key w) as Hw. rewrite H in Hw. simpl in Hw. by subst. Qed.

Lemma docClient_query_same_tables t h w r w1 :
  docClient_query t h w = (r, w1) → same_tables w w1.
Proof. intros H. pose proof (docClient_query_world t h w) as Hw. rewrite H in Hw. simpl in Hw. by subst. Qed.

Lemma anomaly_calls_owner_get Key w :
  anomaly_calls (sent (Get ownerTable Key) w) = anomaly_calls w.
Proof.
  unfold anomaly_calls, sent. cbn [log].
  rewrite filter_app, length_app, filter_cons_False, filter_nil by done.
  simpl. lia.
Qed.

(** *** The authorization gate *)


(** The ownership lookup failed: the three operations hand its error on. *)
Lemma gate_failed ticket vin anomalyId w e data w1 :
  docClient_get ownerTable (owner_key ticket vin) w = ((VObj e, data), w1) →
  listAnomaliesByVehicle ticket vin w = (Cb (VObj e) VNull, w1) ∧
  getVehicleAnomaly ticket vin anomalyId w = (Cb (VObj e) VNull, w1) ∧
  acknowledgeVehicleAnomaly ticket vin anomalyId w = (Cb (VObj e) VNull, w1).
Proof. intros H. run. by rewrite H. Qed.




(** C7. The three operations stop at the first error. When the ownership
    lookup fails with a store error, each operation calls back with that
    very error and has sent the lookup only, so nothing to the anomaly
    table; when the ownership lookup finds a record and the anomaly read of
    [acknowledgeVehicleAnomaly] fails, the operation calls back with that
    error after the two reads, and no put is sent. *)
Theorem short_circuit_on_first_error (ticket : obj) (vin anomalyId : string) (e : obj) (w : world) :
  let w1 := sent (Get ownerTable (owner_key ticket vin)) w in
  let w2 := sent (Get ddbTable (anomaly_key vin anomalyId)) w1 in
  (docClient_get ownerTable (owner_key ticket vin) w = ((VObj e, VNull), w1) →
     listAnomaliesByVehicle ticket vin w = (Cb (VObj e) VNull, w1) ∧
     getVehicleAnomaly ticket vin anomalyId w = (Cb (VObj e) VNull, w1) ∧
     acknowledgeVehicleAnomaly ticket vin anomalyId w = (Cb (VObj e) VNull, w1) ∧
     log w1 = log w ++ [Get ownerTable (owner_key ticket vin)] ∧
     anomaly_calls w1 = anomaly_calls w) ∧
  (∀ data,
     docClient_get ownerTable (owner_key ticket vin) w = ((VNull, data), w1) →
     isEmpty data = false →
     docClient_get ddbTable (anomaly_key vin anomalyId) w1 = ((VObj e, VNull), w2) →
     acknowledgeVehicleAnomaly ticket vin anomalyId w = (Cb (VObj e) VNull, w2) ∧
     log w2 = log w ++ [Get ownerTable (owner_key ticket vin);
                        Get ddbTable (anomaly_key vin anomalyId)] ∧
     Forall (λ a, is_put a = false) (drop (length (log w)) (log w2)) ∧
     same_tables w w2).
Proof.
  intros w1 w2. split.
  - intros Hget.
    destruct (gate_failed ticket vin anomalyId w e VNull w1 Hget) as (Hl & Hg & Ha).
    repeat split; try done. apply anomaly_calls_owner_get.
  - intros data Hget Hdata Hread.
    assert (log w2 = log w ++ [Get ownerTable (owner_key ticket vin);
                               Get ddbTable (anomaly_key vin anomalyId)]) as Hlog.
    { subst w1 w2. simpl. by rewrite <- app_assoc. }
    repeat split; try done.
    + run. rewrite Hget. simpl. rewrite Hdata. simpl. by rewrite Hread.
    + rewrite Hlog, drop_app_length. by repeat constructor.
Qed.

Lemma short_circuit_on_first_error_witness :
  listAnomaliesByVehicle alice "VIN123" (with_faults [Some Throttled] fleet) =
    (Cb (VObj Throttled) VNull,
     sent (Get ownerTable (owner_key alice "VIN123")) (with_faults [Some Throttled] fleet)) ∧
  acknowledgeVehicleAnomaly alice "VIN123" "A1" (with_faults [None; Some Throttled] fleet) =
    (Cb (VObj Throttled) VNull,
     sent (Get ddbTable (anomaly_key "VIN123" "A1"))
       (sent (Get ownerTable (owner_key alice "VIN123"))
          (with_faults [None; Some Throttled] fleet))).
Proof.
  split.
  - refine (proj1 (proj1 (short_circuit_on_first_error alice "VIN123" "A1" Throttled
                            (with_faults [Some Throttled] fleet)) _)).
    vm_compute. reflexivity.
  - refine (proj1 (proj2 (short_circuit_on_first_error alice "VIN123" "A1" Throttled
                            (with_faults [None; Some Throttled] fleet))
                     (VObj {[ "Item" := VObj {[ "owner_id" := VStr "alice";
                                                "vin" := VStr "VIN123" ]} ]}) _ _ _)).
    + vm_compute. reflexivity.
    + vm_compute. reflexivity.
    + vm_compute. reflexivity.
Defined.

(** C9. [listAnomaliesByVehicle] and [getVehicleAnomaly] only read: whatever
    the ticket, the vin, the anomaly id, the tables and the faults, and however
    the call ends, both tables hold afterwards what they held before. *)
Theorem reads_leave_stores_unchanged (ticket : obj) (vin anomalyId : string) (w : world) :
  same_tables w (listAnomaliesByVehicle ticket vin w).2 ∧
  same_tables w (getVehicleAnomaly ticket vin anomalyId w).2.
Proof.
  split; run.
  - destruct (docClient_get _ _ w) as [[err data] w1] eqn:H1.
    apply docClient_get_same_tables in H1.
    destruct (truthy err); [done|]. destruct (negb (isEmpty data)); [|done].
    destruct (docClient_query _ _ w1) as [[err2 data2] w2] eqn:H2.
    apply docClient_query_same_tables in H2.
    destruct (truthy err2); simpl; eauto using same_tables_trans.
  - destruct (docClient_get _ _ w) as [[err data] w1] eqn:H1.
    apply docClient_get_same_tables in H1.
    destruct (truthy err); [done|]. destruct (negb (isEmpty data)); [|done].
    destruct (docClient_get _ _ w1) as [[err2 data2] w2] eqn:H2.
    apply docClient_get_same_tables in H2.
    destruct (truthy err2); [|destruct (negb (isEmpty data2))];
      simpl; eauto using same_tables_trans.
Qed.

(** *** Every way an operation can end *)

Lemma raised_by_store_sent e a w : raised_by_store e (sent a w) → raised_by_store e w.
Proof.
  intros [Hin | ->]; [left | by right]. simpl in Hin.
  destruct (faults w) as [|f fs]; [done|]. by apply list_elem_of_further.
Qed.

Lemma docClient_query_cases t h w :
  (∃ e, docClient_query t h w = ((VObj e, VNull), sent (Query t h) w) ∧ raised_by_store e w) ∨
  docClient_query t h w =
    ((VNull, VObj {[ "Items" := VArr (VObj <$> items_of t h w);
                     "Count" := VNum (Z.of_nat (length (items_of t h w)));
                     "ScannedCount" := VNum (Z.of_nat (length (items_of t h w))) ]}),
     sent (Query t h) w).
Proof.
  unfold docClient_query, raised_by_store, next_fault.
  destruct (faults w) as [|[e|] fs]; [by right | | by right].
  left. exists e. split; [done|]. left. apply list_elem_of_here.
Qed.

Lemma docClient_put_cases t Item w :
  (∃ e, docClient_put t Item w = ((VObj e, VNull), sent (Put t Item) w) ∧ raised_by_store e w) ∨
  (∃ k, key_of t Item = Some k ∧
     docClient_put t Item w =
       ((VNull, VObj ∅), set_tbl t (<[k := Item]> (tbl t w)) (sent (Put t Item) w))).
Proof.
  unfold docClient_put, raised_by_store, next_fault.
  destruct (faults w) as [|[e|] fs].
  - destruct (key_of t Item) as [k|]; [right; eauto | left; eauto].
  - left. exists e. split; [done|]. left. apply list_elem_of_here.
  - destruct (key_of t Item) as [k|]; [right; eauto | left; eauto].
Qed.

Lemma acknowledge_runs ticket vin anomalyId w :
  acknowledge_run ticket vin anomalyId w (acknowledgeVehicleAnomaly ticket vin anomalyId w).
Proof.
  run.
  destruct (docClient_get_cases ownerTable (owner_key ticket vin) w)
    as [(e & H1 & He) | [H1 | (k1 & owner & Hk1 & Ho & H1)]]; rewrite H1; simpl.
  { by apply ack_lookup_failed. }
  { rewrite map_size_empty. apply ack_not_owner. }
  rewrite map_size_singleton. simpl.
  destruct (docClient_get_cases ddbTable (anomaly_key vin anomalyId)
              (sent (Get ownerTable (owner_key ticket vin)) w))
    as [(e & H2 & He) | [H2 | (k2 & item & Hk2 & Hi & H2)]]; rewrite H2; simpl.
  { eapply ack_read_failed; eauto using raised_by_store_sent. }
  { rewrite map_size_empty. eapply ack_not_found; eauto. }
  rewrite map_size_singleton, lookup_singleton_eq. simpl.
  rewrite key_of_anomaly_key in Hk2. simplify_eq. simpl in Hi.
  destruct (docClient_put_cases ddbTable (<[ "acknowledged" := VBool true ]> item)
              (sent (Get ddbTable (anomaly_key vin anomalyId))
                 (sent (Get ownerTable (owner_key ticket vin)) w)))
    as [(e & H3 & He) | (k & Hk & H3)]; rewrite H3; simpl.
  { eapply ack_put_failed; eauto using raised_by_store_sent. }
  { by eapply ack_written. }
Qed.



(** *** Errors the caller sees *)

(** The store's error objects are not of the service's making. *)
Lemma Throttled_not_structured : ¬ structured (VObj Throttled).
Proof.
  intros [msg Hmsg]. apply (f_equal (λ v, prop v "error")) in Hmsg.
  unfold error_message, prop in Hmsg. rewrite lookup_singleton_eq in Hmsg.
  vm_compute in Hmsg. discriminate.
Qed.

Lemma list_error ticket vin w err data w' :
  listAnomaliesByVehicle ticket vin w = (Cb err data, w') → err ≠ VNull →
  data = VNull ∧ (err = AuthorizationError ∨ passed_on err w).
Proof.
  run.
  destruct (docClient_get_cases ownerTable (owner_key ticket vin) w)
    as [(e & H1 & He) | [H1 | (k1 & owner & Hk1 & Ho & H1)]]; rewrite H1; simpl.
  { intros ? ?; simplify_eq. split; [done|]. right. by exists e. }
  { rewrite map_size_empty. simpl. intros ? ?; simplify_eq. by split; [|left]. }
  rewrite map_size_singleton. simpl.
  destruct (docClient_query_cases ddbTable vin (sent (Get ownerTable (owner_key ticket vin)) w))
    as [(e & H2 & He) | H2]; rewrite H2; simpl.
  { intros ? ?; simplify_eq. split; [done|]. right. exists e.
    eauto using raised_by_store_sent. }
  { intros ? ?; simplify_eq. }
Qed.

Lemma get_error ticket vin anomalyId w err data w' :
  getVehicleAnomaly ticket vin anomalyId w = (Cb err data, w') → err ≠ VNull →
  data = VNull ∧ (err = AuthorizationError ∨ err = NotFoundError ∨ passed_on err w).
Proof.
  run.
  destruct (docClient_get_cases ownerTable (owner_key ticket vin) w)
    as [(e & H1 & He) | [H1 | (k1 & owner & Hk1 & Ho & H1)]]; rewrite H1; simpl.
  { intros ? ?; simplify_eq. split; [done|]. right. right. by exists e. }
  { rewrite map_size_empty. simpl. intros ? ?; simplify_eq. by split; [|left]. }
  rewrite map_size_singleton. simpl.
  destruct (docClient_get_cases ddbTable (anomaly_key vin anomalyId)
              (sent (Get ownerTable (owner_key ticket vin)) w))
    as [(e & H2 & He) | [H2 | (k2 & item & Hk2 & Hi & H2)]]; rewrite H2; simpl.
  { intros ? ?; simplify_eq. split; [done|]. right. right. exists e.
    eauto using raised_by_store_sent. }
  { rewrite map_size_empty. simpl. intros ? ?; simplify_eq. split; [done|]. by right; left. }
  { rewrite map_size_singleton. simpl. intros ? ?; simplify_eq. }
Qed.

Lemma acknowledge_error ticket vin anomalyId w err data w' :
  acknowledgeVehicleAnomaly ticket vin anomalyId w = (Cb err data, w') → err ≠ VNull →
  data = VNull ∧ (err = AuthorizationError ∨ err = NotFoundError ∨ passed_on err w).
Proof.
  intros Hrun Herr.
  pose proof (acknowledge_runs ticket vin anomalyId w) as Hcases.
  rewrite Hrun in Hcases.
  inversion Hcases; subst; try done; (split; [done|]); unfold passed_on; eauto.
Qed.

(** C8, as the specification states it, fails: while the store refuses
    requests, the caller of each operation receives the store's own error
    object, which is not of the shape [{error: {message}}]. *)
Lemma raw_store_error_reaches_caller :
  (listAnomaliesByVehicle alice "VIN123" (with_faults [Some Throttled] fleet)).1 =
    Cb (VObj Throttled) VNull ∧
  (getVehicleAnomaly alice "VIN123" "A1" (with_faults [Some Throttled] fleet)).1 =
    Cb (VObj Throttled) VNull ∧
  (acknowledgeVehicleAnomaly alice "VIN123" "A1" (with_faults [None; None; Some Throttled] fleet)).1 =
    Cb (VObj Throttled) VNull ∧
  VObj Throttled ≠ VNull ∧
  ¬ structured (VObj Throttled).
Proof.
  repeat split; try (vm_compute; reflexivity); [discriminate|].
  apply Throttled_not_structured.
Qed.

(** C8, amended. An error the caller receives from any of the three
    operations comes with null data and is one of two kinds: a structured
    value [{error: {message}}] of the service's own, carrying the message of
    the authorization error or of the not-found error, or the error object
    of the store, handed on as the store raised it. *)
Theorem errors_structured_or_passed_on
    (ticket : obj) (vin anomalyId : string) (w : world) (err data : value) (w' : world) :
  listAnomaliesByVehicle ticket vin w = (Cb err data, w') ∨
  getVehicleAnomaly ticket vin anomalyId w = (Cb err data, w') ∨
  acknowledgeVehicleAnomaly ticket vin anomalyId w = (Cb err data, w') →
  err ≠ VNull →
  data = VNull ∧
  ((structured err ∧ (err = AuthorizationError ∨ err = NotFoundError)) ∨
   passed_on err w).
Proof.
  assert (structured AuthorizationError) as HA by (by eexists).
  assert (structured NotFoundError) as HN by (by eexists).
  intros [Hrun | [Hrun | Hrun]] Herr.
  - destruct (list_error _ _ _ _ _ _ Hrun Herr) as (-> & [-> | Hp]); eauto.
  - destruct (get_error _ _ _ _ _ _ _ Hrun Herr) as (-> & [-> | [-> | Hp]]); eauto.
  - destruct (acknowledge_error _ _ _ _ _ _ _ Hrun Herr) as (-> & [-> | [-> | Hp]]); eauto.
Qed.

Lemma errors_structured_or_passed_on_witness :
  getVehicleAnomaly alice "VIN123" "A2" fleet =
    (Cb NotFoundError VNull,
     sent (Get ddbTable (anomaly_key "VIN123" "A2"))
       (sent (Get ownerTable (owner_key alice "VIN123")) fleet)) ∧
  NotFoundError ≠ VNull ∧
  ((structured NotFoundError ∧
    (NotFoundError = AuthorizationError ∨ NotFoundError = NotFoundError)) ∨
   passed_on NotFoundError fleet).
Proof.
  assert (getVehicleAnomaly alice "VIN123" "A2" fleet =
          (Cb NotFoundError VNull,
           sent (Get ddbTable (anomaly_key "VIN123" "A2"))
             (sent (Get ownerTable (owner_key alice "VIN123")) fleet))) as Hrun
    by (vm_compute; reflexivity).
  assert (NotFoundError ≠ VNull) as Herr by discriminate.
  split; [exact Hrun|]. split; [exact Herr|].
  exact (proj2 (errors_structured_or_passed_on alice "VIN123" "A2" fleet _ _ _
                  (or_intror (or_introl Hrun)) Herr)).
Defined.

(** *** A served acknowledgement *)

Lemma key_of_acknowledged (item : obj) :
  key_of ddbTable (<[ "acknowledged" := VBool true ]> item) = key_of ddbTable item.
Proof. unfold key_of. simpl. by rewrite !lookup_insert_ne by done. Qed.

Lemma calm_next_fault_sent n a w : calm (S (S n)) (faults w) → next_fault (sent a w) = None.
Proof. intros H. eapply calm_next_fault, calm_sent, H. Qed.



Lemma fleet_wf : wf_tbl ddbTable fleet.
Proof. apply (bool_decide_unpack _). vm_compute. exact I. Qed.





(** A [get] that answered with an item found it in the table. *)
Lemma docClient_get_found t Key w item w1 :
  docClient_get t Key w = ((VNull, VObj {[ "Item" := VObj item ]}), w1) →
  ∃ k, key_of t Key = Some k ∧ tbl t w !! k = Some item.
Proof.
  destruct (docClient_get_cases t Key w)
    as [(e & H1 & He) | [H1 | (k & item' & Hk & Hi & H1)]]; rewrite H1; intros H.
  - discriminate.
  - apply (f_equal (λ r : response * world, prop r.1.2 "Item")) in H.
    simpl in H. rewrite lookup_empty, lookup_singleton_eq in H. discriminate.
  - apply (f_equal (λ r : response * world, prop r.1.2 "Item")) in H.
    simpl in H. rewrite !lookup_singleton_eq in H. simpl in H.
    exists k. split; [done|]. congruence.
Qed.

(** C4. What an acknowledgement wrote is what a later read finds: when
    [acknowledgeVehicleAnomaly] has called back without error, a
    [getVehicleAnomaly] for the same ticket, vin and anomaly id that runs in
    the resulting world, its two reads served, calls back without error and
    with the very item the acknowledgement returned, in which [acknowledged]
    is true. *)
Theorem acknowledge_persists
    (ticket : obj) (vin anomalyId : string) (w : world) (data : value) (w1 : world) :
  wf_tbl ddbTable w →
  acknowledgeVehicleAnomaly ticket vin anomalyId w = (Cb VNull data, w1) →
  calm 2 (faults w1) →
  ∃ item,
    data = VObj item ∧
    (getVehicleAnomaly ticket vin anomalyId w1).1 = Cb VNull (VObj item) ∧
    item !! "acknowledged" = Some (VBool true).
Proof.
  intros Hwf Hrun Hc.
  pose proof (acknowledge_runs ticket vin anomalyId w) as Hcases.
  rewrite Hrun in Hcases. inversion Hcases as [| | | | |owner item k Hlook Hread Hi Hk]; subst.
  exists (<[ "acknowledged" := VBool true ]> item).
  split; [done|]. split; [|apply lookup_insert_eq].
  rewrite key_of_acknowledged, (Hwf _ _ Hi) in Hk. simplify_eq.
  destruct (docClient_get_found _ _ _ _ _ Hlook) as (k1 & Hk1 & Ho). simpl in Ho.
  run.
  rewrite (docClient_get_served _ _ k1) by eauto using calm_next_fault.
  simpl. rewrite Ho. simpl. rewrite map_size_singleton. simpl.
  rewrite (docClient_get_served _ _ (vin, anomalyId))
    by eauto using key_of_anomaly_key, calm_next_fault_sent.
  simpl. rewrite lookup_insert_eq. simpl.
  by rewrite map_size_singleton, lookup_singleton_eq.
Qed.

Lemma acknowledge_persists_witness :
  wf_tbl ddbTable fleet ∧
  calm 2 (faults (acknowledgeVehicleAnomaly alice "VIN123" "A1" fleet).2) ∧
  ∃ item,
    (acknowledgeVehicleAnomaly alice "VIN123" "A1" fleet).1 = Cb VNull (VObj item) ∧
    (getVehicleAnomaly alice "VIN123" "A1"
       (acknowledgeVehicleAnomaly alice "VIN123" "A1" fleet).2).1 = Cb VNull (VObj item) ∧
    item !! "acknowledged" = Some (VBool true).
Proof.
  assert (wf_tbl ddbTable fleet) as Hwf
    by (apply (bool_decide_unpack _); vm_compute; exact I).
  assert (acknowledgeVehicleAnomaly alice "VIN123" "A1" fleet =
          (Cb VNull (VObj (<[ "acknowledged" := VBool true ]> A1)),
           (acknowledgeVehicleAnomaly alice "VIN123" "A1" fleet).2)) as Hrun
    by (vm_compute; reflexivity).
  assert (calm 2 (faults (acknowledgeVehicleAnomaly alice "VIN123" "A1" fleet).2)) as Hc
    by (vm_compute; exact I).
  destruct (acknowledge_persists alice "VIN123" "A1" fleet _ _ Hwf Hrun Hc)
    as (item & Hdata & Hget & Hack).
  refine (conj Hwf (conj Hc (ex_intro _ item (conj _ (conj Hget Hack))))).
  rewrite Hrun. simpl. by rewrite Hdata.
Defined.

(** *** Reading *)


Lemma elem_of_items_of t h w (item : obj) :
  item ∈ items_of t h w ↔ ∃ r, tbl t w !! (h, r) = Some item.
Proof.
  unfold items_of. rewrite list_elem_of_fmap. split.
  - intros ([[h' r] item'] & -> & Hin).
    apply list_elem_of_filter in Hin as [Hh Hin]. simpl in Hh. subst h'.
    apply elem_of_map_to_list in Hin. eauto.
  - intros (r & Hr). exists ((h, r), item). split; [done|].
    apply list_elem_of_filter. split; [done|]. by apply elem_of_map_to_list.
Qed.







(** The [TypeError] branch of [acknowledgeVehicleAnomaly] is never taken: a
    non-empty answer of the store's [get] always carries an object [Item]. *)
Lemma acknowledge_never_throws ticket vin anomalyId w :
  (acknowledgeVehicleAnomaly ticket vin anomalyId w).1 ≠ Thrown.
Proof.
  pose proof (acknowledge_runs ticket vin anomalyId w) as Hcases.
  by inversion Hcases.
Qed.

(** *** The store invariant is kept *)

(** An acknowledgement writes the item under the key the item spells, so
    the anomaly table stays well keyed, however the run ends. *)
Lemma acknowledge_keeps_wf ticket vin anomalyId w :
  wf_tbl ddbTable w →
  wf_tbl ddbTable (acknowledgeVehicleAnomaly ticket vin anomalyId w).2.
Proof.
  intros Hwf. pose proof (acknowledge_runs ticket vin anomalyId w) as Hcases.
  inversion Hcases as [| | | | |owner item k Hlook Hread Hi Hk Heq]; try done.
  unfold wf_tbl. simpl. by apply map_Forall_insert_2.
Qed.

(** *** The scenario, run *)

Example scenario_list :
  (listAnomaliesByVehicle alice "VIN123" fleet).1 =
    Cb VNull (VObj {[ "Items" := VArr [VObj A1];
                      "Count" := VNum 1; "ScannedCount" := VNum 1 ]}).
Proof. vm_compute. reflexivity. Qed.

Example scenario_get :
  (getVehicleAnomaly alice "VIN123" "A1" fleet).1 = Cb VNull (VObj A1).
Proof. vm_compute. reflexivity. Qed.

Example scenario_acknowledge :
  (acknowledgeVehicleAnomaly alice "VIN123" "A1" fleet).1 =
    Cb VNull (VObj {[ "vin" := VStr "VIN123"; "anomaly_id" := VStr "A1";
                      "acknowledged" := VBool true; "code" := VStr "P0171" ]}).
Proof. vm_compute. reflexivity. Qed.

Example scenario_not_owner :
  (getVehicleAnomaly bob "VIN123" "A1" fleet).1 = Cb AuthorizationError VNull.
Proof. vm_compute. reflexivity. Qed.

Example scenario_not_found :
  (getVehicleAnomaly alice "VIN123" "A2" fleet).1 = Cb NotFoundError VNull.
Proof. vm_compute. reflexivity. Qed.

(** A ticket without a username: the store refuses the key. *)
Example scenario_no_username :
  (getVehicleAnomaly ∅ "VIN123" "A1" fleet).1 = Cb (VObj ValidationException) VNull.
Proof. vm_compute. reflexivity. Qed.

(** ** Further properties of the three operations *)

(** *** Every way a read can end *)

Lemma owner_key_inv ticket vin k :
  key_of ownerTable (owner_key ticket vin) = Some k →
  ticket !! "cognito:username" = Some (VStr k.1) ∧ k.2 = vin.
Proof.
  unfold key_of, owner_key. simpl.
  rewrite lookup_insert_eq, lookup_insert_ne by done. rewrite lookup_singleton_eq.
  destruct (ticket !! "cognito:username") as [[]|]; simpl; intros; by simplify_eq.
Qed.

Lemma owner_key_no_username ticket vin :
  (∀ u, ticket !! "cognito:username" ≠ Some (VStr u)) →
  key_of ownerTable (owner_key ticket vin) = None.
Proof.
  intros Hno. destruct (key_of ownerTable (owner_key ticket vin)) as [k|] eqn:Hk; [|done].
  apply owner_key_inv in Hk as [Hu _]. by destruct (Hno _ Hu).
Qed.

Lemma requests_sent1 a w : requests w (sent a w) = [a].
Proof. unfold requests. simpl. by rewrite drop_app_length. Qed.

Lemma requests_sent2 a b w : requests w (sent b (sent a w)) = [a; b].
Proof. unfold requests. simpl. by rewrite <- app_assoc, drop_app_length. Qed.

Lemma requests_sent3 a b c w : requests w (sent c (sent b (sent a w))) = [a; b; c].
Proof. unfold requests. simpl. by rewrite <- !app_assoc, drop_app_length. Qed.

(** How a run of [listAnomaliesByVehicle] can end. *)
Lemma list_cases ticket vin w :
  let w1 := sent (Get ownerTable (owner_key ticket vin)) w in
  let w2 := sent (Query ddbTable vin) w1 in
  (∃ e, raised_by_store e w ∧
     listAnomaliesByVehicle ticket vin w = (Cb (VObj e) VNull, w1)) ∨
  listAnomaliesByVehicle ticket vin w = (Cb AuthorizationError VNull, w1) ∨
  (∃ k owner, key_of ownerTable (owner_key ticket vin) = Some k ∧
     owner_tbl w !! k = Some owner ∧
     ((∃ e, raised_by_store e w ∧
         listAnomaliesByVehicle ticket vin w = (Cb (VObj e) VNull, w2)) ∨
      listAnomaliesByVehicle ticket vin w =
        (Cb VNull (query_output (items_of ddbTable vin w)), w2))).
Proof.
  intros w1 w2. run.
  destruct (docClient_get_cases ownerTable (owner_key ticket vin) w)
    as [(e & H1 & He) | [H1 | (k & owner & Hk & Ho & H1)]]; rewrite H1; simpl.
  { left. eauto. }
  { rewrite map_size_empty. right. by left. }
  rewrite map_size_singleton. simpl. right. right. exists k, owner.
  split; [done|]. split; [done|].
  destruct (docClient_query_cases ddbTable vin w1) as [(e & H2 & He) | H2];
    fold w1; rewrite H2; simpl.
  - left. exists e. eauto using raised_by_store_sent.
  - by right.
Qed.

(** How a run of [getVehicleAnomaly] can end. *)
Lemma get_cases ticket vin anomalyId w :
  let w1 := sent (Get ownerTable (owner_key ticket vin)) w in
  let w2 := sent (Get ddbTable (anomaly_key vin anomalyId)) w1 in
  (∃ e, raised_by_store e w ∧
     getVehicleAnomaly ticket vin anomalyId w = (Cb (VObj e) VNull, w1)) ∨
  getVehicleAnomaly ticket vin anomalyId w = (Cb AuthorizationError VNull, w1) ∨
  (∃ k owner, key_of ownerTable (owner_key ticket vin) = Some k ∧
     owner_tbl w !! k = Some owner ∧
     ((∃ e, raised_by_store e w ∧
         getVehicleAnomaly ticket vin anomalyId w = (Cb (VObj e) VNull, w2)) ∨
      (anomaly_tbl w !! (vin, anomalyId) = None ∧
         getVehicleAnomaly ticket vin anomalyId w = (Cb NotFoundError VNull, w2)) ∨
      (∃ item, anomaly_tbl w !! (vin, anomalyId) = Some item ∧
         getVehicleAnomaly ticket vin anomalyId w = (Cb VNull (VObj item), w2)))).
Proof.
  intros w1 w2. run.
  destruct (docClient_get_cases ownerTable (owner_key ticket vin) w)
    as [(e & H1 & He) | [H1 | (k & owner & Hk & Ho & H1)]]; rewrite H1; simpl.
  { left. eauto. }
  { rewrite map_size_empty. right. by left. }
  rewrite map_size_singleton. simpl. right. right. exists k, owner.
  split; [done|]. split; [done|]. fold w1.
  unfold docClient_get. rewrite key_of_anomaly_key. simpl.
  destruct (next_fault w1) as [e|] eqn:Hf.
  - left. exists e. split; [|done]. apply (raised_by_store_sent _ (Get ownerTable (owner_key ticket vin))).
    left. fold w1. unfold next_fault in Hf.
    destruct (faults w1) as [|[e'|] fs]; simplify_eq. apply list_elem_of_here.
  - right. destruct (anomaly_tbl w !! (vin, anomalyId)) as [item|] eqn:Hi; simpl.
    + right. exists item. by rewrite map_size_singleton, lookup_singleton_eq.
    + left. by rewrite map_size_empty.
Qed.

(** *** Served reads *)

Lemma key_of_range t (item : obj) k :
  key_of t item = Some k → item !! (key_schema t).2 = Some (VStr k.2).
Proof. unfold key_of. intros H. repeat case_match; by simplify_eq. Qed.

Lemma list_served ticket vin w k owner :
  key_of ownerTable (owner_key ticket vin) = Some k →
  owner_tbl w !! k = Some owner →
  calm 2 (faults w) →
  listAnomaliesByVehicle ticket vin w =
    (Cb VNull (query_output (items_of ddbTable vin w)),
     sent (Query ddbTable vin) (sent (Get ownerTable (owner_key ticket vin)) w)).
Proof.
  intros Hk Ho Hc. run.
  rewrite (docClient_get_served _ _ k) by eauto using calm_next_fault.
  simpl. rewrite Ho. simpl. rewrite map_size_singleton. simpl.
  unfold docClient_query. by rewrite (calm_next_fault_sent 0) by done.
Qed.

Lemma get_served ticket vin anomalyId w k owner :
  key_of ownerTable (owner_key ticket vin) = Some k →
  owner_tbl w !! k = Some owner →
  calm 2 (faults w) →
  getVehicleAnomaly ticket vin anomalyId w =
    (match anomaly_tbl w !! (vin, anomalyId) with
     | Some item => Cb VNull (VObj item)
     | None => Cb NotFoundError VNull
     end,
     sent (Get ddbTable (anomaly_key vin anomalyId))
       (sent (Get ownerTable (owner_key ticket vin)) w)).
Proof.
  intros Hk Ho Hc. run.
  rewrite (docClient_get_served _ _ k) by eauto using calm_next_fault.
  simpl. rewrite Ho. simpl. rewrite map_size_singleton. simpl.
  rewrite (docClient_get_served _ _ (vin, anomalyId))
    by eauto using key_of_anomaly_key, calm_next_fault_sent.
  simpl. destruct (anomaly_tbl w !! (vin, anomalyId)) as [item|]; simpl.
  - by rewrite map_size_singleton, lookup_singleton_eq.
  - by rewrite map_size_empty.
Qed.

Lemma prop_Items items : prop (query_output items) "Items" = VArr (VObj <$> items).
Proof. unfold query_output, prop. by rewrite lookup_insert_eq. Qed.

Lemma elem_of_VObj_fmap (item : obj) (items : list obj) :
  VObj item ∈ VObj <$> items → item ∈ items.
Proof.
  intros Hin. apply list_elem_of_fmap in Hin as (item' & Heq & Hin).
  assert (item = item') as -> by congruence. done.
Qed.

(** *** Store errors after the gate *)

(** X1. In [listAnomaliesByVehicle], when the ownership lookup found a record
    and the query of the anomaly table fails, the callback gets the error of
    the query with null data, after exactly the lookup and the query; both
    tables are as before. *)
Theorem list_query_failure (ticket : obj) (vin : string) (e : obj) (data : value) (w : world) :
  let w1 := sent (Get ownerTable (owner_key ticket vin)) w in
  let w2 := sent (Query ddbTable vin) w1 in
  docClient_get ownerTable (owner_key ticket vin) w = ((VNull, data), w1) →
  isEmpty data = false →
  docClient_query ddbTable vin w1 = ((VObj e, VNull), w2) →
  listAnomaliesByVehicle ticket vin w = (Cb (VObj e) VNull, w2) ∧
  requests w w2 = [Get ownerTable (owner_key ticket vin); Query ddbTable vin] ∧
  same_tables w w2.
Proof.
  intros w1 w2 Hget Hdata Hquery. split; [|split; [apply requests_sent2 | done]].
  run. rewrite Hget. simpl. rewrite Hdata. simpl. by rewrite Hquery.
Qed.

Lemma list_query_failure_witness :
  listAnomaliesByVehicle alice "VIN123" (with_faults [None; Some Throttled] fleet) =
    (Cb (VObj Throttled) VNull,
     sent (Query ddbTable "VIN123")
       (sent (Get ownerTable (owner_key alice "VIN123"))
          (with_faults [None; Some Throttled] fleet))).
Proof.
  refine (proj1 (list_query_failure alice "VIN123" Throttled
                   (VObj {[ "Item" := VObj {[ "owner_id" := VStr "alice";
                                              "vin" := VStr "VIN123" ]} ]})
                   (with_faults [None; Some Throttled] fleet) _ _ _)).
  - vm_compute. reflexivity.
  - vm_compute. reflexivity.
  - vm_compute. reflexivity.
Defined.

(** X2. In [getVehicleAnomaly], when the ownership lookup found a record and
    the read of the anomaly fails, the callback gets the error of the read
    with null data, after exactly the two gets; both tables are as before. *)
Theorem get_read_failure
    (ticket : obj) (vin anomalyId : string) (e : obj) (data : value) (w : world) :
  let w1 := sent (Get ownerTable (owner_key ticket vin)) w in
  let w2 := sent (Get ddbTable (anomaly_key vin anomalyId)) w1 in
  docClient_get ownerTable (owner_key ticket vin) w = ((VNull, data), w1) →
  isEmpty data = false →
  docClient_get ddbTable (anomaly_key vin anomalyId) w1 = ((VObj e, VNull), w2) →
  getVehicleAnomaly ticket vin anomalyId w = (Cb (VObj e) VNull, w2) ∧
  requests w w2 = [Get ownerTable (owner_key ticket vin);
                   Get ddbTable (anomaly_key vin anomalyId)] ∧
  same_tables w w2.
Proof.
  intros w1 w2 Hget Hdata Hread. split; [|split; [apply requests_sent2 | done]].
  run. rewrite Hget. simpl. rewrite Hdata. simpl. by rewrite Hread.
Qed.

Lemma get_read_failure_witness :
  getVehicleAnomaly alice "VIN123" "A1" (with_faults [None; Some Throttled] fleet) =
    (Cb (VObj Throttled) VNull,
     sent (Get ddbTable (anomaly_key "VIN123" "A1"))
       (sent (Get ownerTable (owner_key alice "VIN123"))
          (with_faults [None; Some Throttled] fleet))).
Proof.
  refine (proj1 (get_read_failure alice "VIN123" "A1" Throttled
                   (VObj {[ "Item" := VObj {[ "owner_id" := VStr "alice";
                                              "vin" := VStr "VIN123" ]} ]})
                   (with_faults [None; Some Throttled] fleet) _ _ _)).
  - vm_compute. reflexivity.
  - vm_compute. reflexivity.
  - vm_compute. reflexivity.
Defined.

(** X3. In [acknowledgeVehicleAnomaly], when both reads found their item and
    the put fails, the callback gets the error of the put and null data, not
    the item it has changed in memory; the put was the third and last
    request, carrying the item with [acknowledged] set, and both tables are
    as before. *)
Theorem acknowledge_put_failure
    (ticket : obj) (vin anomalyId : string) (e : obj) (data : value) (item : obj) (w : world) :
  let w1 := sent (Get ownerTable (owner_key ticket vin)) w in
  let w2 := sent (Get ddbTable (anomaly_key vin anomalyId)) w1 in
  let acked := <[ "acknowledged" := VBool true ]> item in
  let w3 := sent (Put ddbTable acked) w2 in
  docClient_get ownerTable (owner_key ticket vin) w = ((VNull, data), w1) →
  isEmpty data = false →
  docClient_get ddbTable (anomaly_key vin anomalyId) w1 =
    ((VNull, VObj {[ "Item" := VObj item ]}), w2) →
  docClient_put ddbTable acked w2 = ((VObj e, VNull), w3) →
  acknowledgeVehicleAnomaly ticket vin anomalyId w = (Cb (VObj e) VNull, w3) ∧
  requests w w3 = [Get ownerTable (owner_key ticket vin);
                   Get ddbTable (anomaly_key vin anomalyId);
                   Put ddbTable acked] ∧
  same_tables w w3.
Proof.
  intros w1 w2 acked w3 Hget Hdata Hread Hput.
  split; [|split; [apply requests_sent3 | done]].
  run. rewrite Hget. simpl. rewrite Hdata. simpl. rewrite Hread. simpl.
  rewrite map_size_singleton, lookup_singleton_eq. simpl. fold acked. by rewrite Hput.
Qed.

Lemma acknowledge_put_failure_witness :
  acknowledgeVehicleAnomaly alice "VIN123" "A1" (with_faults [None; None; Some Throttled] fleet) =
    (Cb (VObj Throttled) VNull,
     sent (Put ddbTable (<[ "acknowledged" := VBool true ]> A1))
       (sent (Get ddbTable (anomaly_key "VIN123" "A1"))
          (sent (Get ownerTable (owner_key alice "VIN123"))
             (with_faults [None; None; Some Throttled] fleet)))).
Proof.
  refine (proj1 (acknowledge_put_failure alice "VIN123" "A1" Throttled
                   (VObj {[ "Item" := VObj {[ "owner_id" := VStr "alice";
                                              "vin" := VStr "VIN123" ]} ]})
                   A1 (with_faults [None; None; Some Throttled] fleet) _ _ _ _)).
  - vm_compute. reflexivity.
  - vm_compute. reflexivity.
  - vm_compute. reflexivity.
  - vm_compute. reflexivity.
Defined.

(** X4. The operations do not look at the ticket before asking the store:
    with a ticket that carries no string under [cognito:username], the
    ownership lookup is still sent, with [owner_id] as the ticket gives it
    (undefined when missing), and the caller of each operation gets the
    store's refusal of that key, not the authorization error; nothing else
    is sent. *)
Theorem ticket_without_username (ticket : obj) (vin anomalyId : string) (w : world) :
  (∀ u, ticket !! "cognito:username" ≠ Some (VStr u)) →
  calm 1 (faults w) →
  let refused :=
    (Cb (VObj ValidationException) VNull,
     sent (Get ownerTable (owner_key ticket vin)) w) in
  listAnomaliesByVehicle ticket vin w = refused ∧
  getVehicleAnomaly ticket vin anomalyId w = refused ∧
  acknowledgeVehicleAnomaly ticket vin anomalyId w = refused ∧
  (owner_key ticket vin) !! "owner_id" = Some (default VUndefined (ticket !! "cognito:username")) ∧
  requests w refused.2 = [Get ownerTable (owner_key ticket vin)].
Proof.
  intros Hno Hc refused.
  assert (docClient_get ownerTable (owner_key ticket vin) w =
            ((VObj ValidationException, VNull), refused.2)) as Hget.
  { unfold docClient_get.
    by rewrite (calm_next_fault 0), owner_key_no_username. }
  destruct (gate_failed ticket vin anomalyId w _ _ _ Hget) as (Hl & Hg & Ha).
  repeat split; try done. apply requests_sent1.
Qed.

Lemma ticket_without_username_witness :
  (∀ u, (∅ : obj) !! "cognito:username" ≠ Some (VStr u)) ∧
  calm 1 (faults fleet) ∧
  getVehicleAnomaly ∅ "VIN123" "A1" fleet =
    (Cb (VObj ValidationException) VNull,
     sent (Get ownerTable (owner_key ∅ "VIN123")) fleet).
Proof.
  assert (∀ u, (∅ : obj) !! "cognito:username" ≠ Some (VStr u)) as Hno
    by (intros u; rewrite lookup_empty; discriminate).
  assert (calm 1 (faults fleet)) as Hc by (simpl; exact I).
  exact (conj Hno (conj Hc
    (proj1 (proj2 (ticket_without_username ∅ "VIN123" "A1" fleet Hno Hc))))).
Defined.

(** *** What is sent, and in which order *)

(** X5. Whatever the input and the faults, [listAnomaliesByVehicle] sends
    the ownership lookup alone or the lookup followed by one query of the
    anomaly table for the vin, and [getVehicleAnomaly] the lookup alone or
    followed by one get of (vin, anomalyId): the first request is always the
    ownership lookup, and neither ever sends a put. *)
Theorem reads_request_protocol (ticket : obj) (vin anomalyId : string) (w : world) :
  let lookup := Get ownerTable (owner_key ticket vin) in
  (requests w (listAnomaliesByVehicle ticket vin w).2 = [lookup] ∨
   requests w (listAnomaliesByVehicle ticket vin w).2 = [lookup; Query ddbTable vin]) ∧
  (requests w (getVehicleAnomaly ticket vin anomalyId w).2 = [lookup] ∨
   requests w (getVehicleAnomaly ticket vin anomalyId w).2 =
     [lookup; Get ddbTable (anomaly_key vin anomalyId)]).
Proof.
  intros lookup. split.
  - destruct (list_cases ticket vin w)
      as [(e & _ & ->) | [-> | (k & owner & _ & _ & [(e & _ & ->) | ->])]]; simpl;
      eauto using requests_sent1, requests_sent2.
  - destruct (get_cases ticket vin anomalyId w)
      as [(e & _ & ->) | [-> | (k & owner & _ & _ &
            [(e & _ & ->) | [[_ ->] | (item & _ & ->)]])]]; simpl;
      eauto using requests_sent1, requests_sent2.
Qed.


(** *** What a success means *)

(** X7. No data without ownership: whenever one of the three operations
    calls back without error, the ticket carries a username and the
    ownership table holds a record under (username, vin). *)
Theorem no_data_without_ownership
    (ticket : obj) (vin anomalyId : string) (w : world) (data : value) (w' : world) :
  listAnomaliesByVehicle ticket vin w = (Cb VNull data, w') ∨
  getVehicleAnomaly ticket vin anomalyId w = (Cb VNull data, w') ∨
  acknowledgeVehicleAnomaly ticket vin anomalyId w = (Cb VNull data, w') →
  ∃ u owner,
    ticket !! "cognito:username" = Some (VStr u) ∧
    owner_tbl w !! (u, vin) = Some owner.
Proof.
  assert (∀ k owner, key_of ownerTable (owner_key ticket vin) = Some k →
            owner_tbl w !! k = Some owner →
            ∃ u owner, ticket !! "cognito:username" = Some (VStr u) ∧
                       owner_tbl w !! (u, vin) = Some owner) as Hkey.
  { intros [u v] owner Hk Ho. apply owner_key_inv in Hk as [Hu Hv].
    simpl in *. subst v. eauto. }
  intros [Hrun | [Hrun | Hrun]].
  - destruct (list_cases ticket vin w)
      as [(e & _ & H) | [H | (k & owner & Hk & Ho & _)]];
      [rewrite H in Hrun; discriminate.. | eauto].
  - destruct (get_cases ticket vin anomalyId w)
      as [(e & _ & H) | [H | (k & owner & Hk & Ho & _)]];
      [rewrite H in Hrun; discriminate.. | eauto].
  - pose proof (acknowledge_runs ticket vin anomalyId w) as Hcases.
    rewrite Hrun in Hcases.
    inversion Hcases as [| | | | |owner item k Hlook Hread Hi Hk Heq].
    apply docClient_get_found in Hlook as (k1 & Hk1 & Ho). eauto.
Qed.

Lemma no_data_without_ownership_witness :
  getVehicleAnomaly alice "VIN123" "A1" fleet =
    (Cb VNull (VObj A1),
     sent (Get ddbTable (anomaly_key "VIN123" "A1"))
       (sent (Get ownerTable (owner_key alice "VIN123")) fleet)) ∧
  ∃ u owner,
    alice !! "cognito:username" = Some (VStr u) ∧
    owner_tbl fleet !! (u, "VIN123") = Some owner.
Proof.
  assert (getVehicleAnomaly alice "VIN123" "A1" fleet =
          (Cb VNull (VObj A1),
           sent (Get ddbTable (anomaly_key "VIN123" "A1"))
             (sent (Get ownerTable (owner_key alice "VIN123")) fleet))) as Hrun
    by (vm_compute; reflexivity).
  exact (conj Hrun (no_data_without_ownership alice "VIN123" "A1" fleet _ _
                      (or_intror (or_introl Hrun)))).
Defined.





(** *** What an acknowledgement leaves alone *)

(** X10. However [acknowledgeVehicleAnomaly] ends (items being stored under
    their own key), it leaves the ownership table as it was, neither adds
    nor removes a key of the anomaly table, leaves every record other than
    (vin, anomalyId) as it was, and the items are still stored under their
    own key. *)
Theorem acknowledge_frame (ticket : obj) (vin anomalyId : string) (w : world) :
  wf_tbl ddbTable w →
  let w' := (acknowledgeVehicleAnomaly ticket vin anomalyId w).2 in
  owner_tbl w' = owner_tbl w ∧
  dom (anomaly_tbl w') = dom (anomaly_tbl w) ∧
  (∀ k, k ≠ (vin, anomalyId) → anomaly_tbl w' !! k = anomaly_tbl w !! k) ∧
  wf_tbl ddbTable w'.
Proof.
  intros Hwf w'. subst w'.
  pose proof (acknowledge_runs ticket vin anomalyId w) as Hcases.
  inversion Hcases as [| | | | |owner item k Hlook Hread Hi Hk Heq]; try done.
  pose proof Hk as Hk'. rewrite key_of_acknowledged, (Hwf _ _ Hi) in Hk'. simplify_eq.
  simpl. repeat split.
  - by apply dom_insert_lookup_L.
  - intros k Hne. by apply lookup_insert_ne.
  - unfold wf_tbl. simpl. by apply map_Forall_insert_2.
Qed.

Lemma acknowledge_frame_witness :
  wf_tbl ddbTable fleet ∧
  dom (anomaly_tbl (acknowledgeVehicleAnomaly alice "VIN123" "A1" fleet).2) =
    dom (anomaly_tbl fleet) ∧
  wf_tbl ddbTable (acknowledgeVehicleAnomaly alice "VIN123" "A1" fleet).2.
Proof.
  assert (wf_tbl ddbTable fleet) as Hwf
    by (apply (bool_decide_unpack _); vm_compute; exact I).
  destruct (acknowledge_frame alice "VIN123" "A1" fleet Hwf) as (_ & Hdom & _ & Hwf').
  exact (conj Hwf (conj Hdom Hwf')).
Defined.



(** X12. For a registered owner whose vehicle has no anomaly, with the two
    requests served, [listAnomaliesByVehicle] calls back without error and
    with an answer whose [Items] is empty and whose counts are 0: an empty
    list is not reported as an error. *)
Theorem list_of_no_anomalies (ticket : obj) (u vin : string) (w : world) (owner : obj) :
  ticket !! "cognito:username" = Some (VStr u) →
  owner_tbl w !! (u, vin) = Some owner →
  (∀ anomalyId, anomaly_tbl w !! (vin, anomalyId) = None) →
  calm 2 (faults w) →
  (listAnomaliesByVehicle ticket vin w).1 =
    Cb VNull (VObj {[ "Items" := VArr []; "Count" := VNum 0; "ScannedCount" := VNum 0 ]}).
Proof.
  intros Hu Ho Hnone Hc.
  rewrite (list_served ticket vin w (u, vin) owner) by eauto using key_of_owner_key.
  assert (items_of ddbTable vin w = []) as ->; [|done].
  destruct (items_of ddbTable vin w) as [|item items] eqn:Hitems; [done|].
  assert (item ∈ items_of ddbTable vin w) as Hin by (rewrite Hitems; apply list_elem_of_here).
  apply elem_of_items_of in Hin as [r Hr]. simpl in Hr. by rewrite Hnone in Hr.
Qed.

Lemma list_of_no_anomalies_witness :
  alice !! "cognito:username" = Some (VStr "alice") ∧
  (∀ anomalyId, anomaly_tbl quiet_fleet !! ("VIN123", anomalyId) = None) ∧
  calm 2 (faults quiet_fleet) ∧
  (listAnomaliesByVehicle alice "VIN123" quiet_fleet).1 =
    Cb VNull (VObj {[ "Items" := VArr []; "Count" := VNum 0; "ScannedCount" := VNum 0 ]}).
Proof.
  assert (alice !! "cognito:username" = Some (VStr "alice")) as Hu
    by (vm_compute; reflexivity).
  assert (owner_tbl quiet_fleet !! ("alice", "VIN123") =
            Some {[ "owner_id" := VStr "alice"; "vin" := VStr "VIN123" ]}) as Ho
    by (vm_compute; reflexivity).
  assert (∀ anomalyId, anomaly_tbl quiet_fleet !! ("VIN123", anomalyId) = None) as Hnone
    by (intros anomalyId; apply lookup_singleton_ne; discriminate).
  assert (calm 2 (faults quiet_fleet)) as Hc by (simpl; exact I).
  exact (conj Hu (conj Hnone (conj Hc
    (list_of_no_anomalies alice "alice" "VIN123" quiet_fleet _ Hu Ho Hnone Hc)))).
Defined.

(** X13. The callback of the three operations gets either no error and an
    object as data, or an error object and null data: never both, never
    neither. *)
Theorem callback_gets_error_or_data
    (ticket : obj) (vin anomalyId : string) (w : world) (err data : value) (w' : world) :
  listAnomaliesByVehicle ticket vin w = (Cb err data, w') ∨
  getVehicleAnomaly ticket vin anomalyId w = (Cb err data, w') ∨
  acknowledgeVehicleAnomaly ticket vin anomalyId w = (Cb err data, w') →
  (err = VNull ∧ ∃ o, data = VObj o) ∨ ((∃ e, err = VObj e) ∧ data = VNull).
Proof.
  intros [Hrun | [Hrun | Hrun]].
  - destruct (list_cases ticket vin w)
      as [(e & _ & H) | [H | (k & owner & _ & _ & [(e & _ & H) | H])]];
      rewrite H in Hrun; simplify_eq; unfold AuthorizationError, error_message, query_output;
      eauto.
  - destruct (get_cases ticket vin anomalyId w)
      as [(e & _ & H) | [H | (k & owner & _ & _ &
            [(e & _ & H) | [[_ H] | (item & _ & H)]])]];
      rewrite H in Hrun; simplify_eq;
      unfold AuthorizationError, NotFoundError, error_message; eauto.
  - pose proof (acknowledge_runs ticket vin anomalyId w) as Hcases.
    rewrite Hrun in Hcases.
    inversion Hcases; subst; unfold AuthorizationError, NotFoundError, error_message; eauto.
Qed.

Lemma callback_gets_error_or_data_witness :
  getVehicleAnomaly bob "VIN123" "A1" fleet =
    (Cb AuthorizationError VNull, sent (Get ownerTable (owner_key bob "VIN123")) fleet) ∧
  ((AuthorizationError = VNull ∧ ∃ o, VNull = VObj o) ∨
   ((∃ e, AuthorizationError = VObj e) ∧ VNull = VNull)).
Proof.
  assert (getVehicleAnomaly bob "VIN123" "A1" fleet =
          (Cb AuthorizationError VNull,
           sent (Get ownerTable (owner_key bob "VIN123")) fleet)) as Hrun
    by (vm_compute; reflexivity).
  exact (conj Hrun (callback_gets_error_or_data bob "VIN123" "A1" fleet _ _ _
                      (or_intror (or_introl Hrun)))).
Defined.

(** *** How the operations compose *)

(** X14. What is listed can be fetched: every item under [Items] in the
    answer of a successful [listAnomaliesByVehicle] carries an [anomaly_id],
    and [getVehicleAnomaly] for the same ticket and vin and that id, run
    next with its two reads served, returns that very item. *)
Theorem listed_item_can_be_fetched
    (ticket : obj) (vin : string) (w : world) (data : value) (w1 : world)
    (xs : list value) (item : obj) :
  wf_tbl ddbTable w →
  listAnomaliesByVehicle ticket vin w = (Cb VNull data, w1) →
  prop data "Items" = VArr xs →
  VObj item ∈ xs →
  calm 2 (faults w1) →
  ∃ anomalyId,
    item !! "anomaly_id" = Some (VStr anomalyId) ∧
    (getVehicleAnomaly ticket vin anomalyId w1).1 = Cb VNull (VObj item).
Proof.
  intros Hwf Hrun Hitems Hin Hc.
  destruct (list_cases ticket vin w)
    as [(e & _ & H) | [H | (k & owner & Hk & Ho & [(e & _ & H) | H])]];
    rewrite H in Hrun; simplify_eq.
  rewrite prop_Items in Hitems. simplify_eq.
  apply elem_of_VObj_fmap, elem_of_items_of in Hin as [r Hr]. simpl in Hr.
  exists r. split.
  - apply (key_of_range ddbTable _ _ (Hwf _ _ Hr)).
  - rewrite (get_served _ _ _ _ k owner) by done. simpl. by rewrite Hr.
Qed.

Lemma listed_item_can_be_fetched_witness :
  wf_tbl ddbTable fleet ∧
  listAnomaliesByVehicle alice "VIN123" fleet =
    (Cb VNull (query_output [A1]),
     sent (Query ddbTable "VIN123") (sent (Get ownerTable (owner_key alice "VIN123")) fleet)) ∧
  ∃ anomalyId,
    A1 !! "anomaly_id" = Some (VStr anomalyId) ∧
    (getVehicleAnomaly alice "VIN123" anomalyId
       (sent (Query ddbTable "VIN123")
          (sent (Get ownerTable (owner_key alice "VIN123")) fleet))).1 = Cb VNull (VObj A1).
Proof.
  assert (wf_tbl ddbTable fleet) as Hwf
    by (apply (bool_decide_unpack _); vm_compute; exact I).
  assert (listAnomaliesByVehicle alice "VIN123" fleet =
          (Cb VNull (query_output [A1]),
           sent (Query ddbTable "VIN123")
             (sent (Get ownerTable (owner_key alice "VIN123")) fleet))) as Hrun
    by (vm_compute; reflexivity).
  assert (prop (query_output [A1]) "Items" = VArr [VObj A1]) as Hitems
    by (vm_compute; reflexivity).
  assert (VObj A1 ∈ [VObj A1]) as Hin by apply list_elem_of_here.
  assert (calm 2 (faults (sent (Query ddbTable "VIN123")
                            (sent (Get ownerTable (owner_key alice "VIN123")) fleet)))) as Hc
    by (simpl; exact I).
  exact (conj Hwf (conj Hrun
    (listed_item_can_be_fetched alice "VIN123" fleet _ _ _ A1 Hwf Hrun Hitems Hin Hc))).
Defined.



(** *** What the ticket is read for *)

(** X16. Of the ticket the operations read the username only: two tickets
    with the same [cognito:username], whatever else they carry, give the
    same outcome and the same resulting world for each operation. *)
Theorem only_the_username_is_read
    (ticket ticket' : obj) (vin anomalyId : string) (w : world) :
  ticket !! "cognito:username" = ticket' !! "cognito:username" →
  listAnomaliesByVehicle ticket vin w = listAnomaliesByVehicle ticket' vin w ∧
  getVehicleAnomaly ticket vin anomalyId w = getVehicleAnomaly ticket' vin anomalyId w ∧
  acknowledgeVehicleAnomaly ticket vin anomalyId w =
    acknowledgeVehicleAnomaly ticket' vin anomalyId w.
Proof.
  intros Hu.
  assert (owner_key ticket vin = owner_key ticket' vin) as Hkey
    by (unfold owner_key; by rewrite Hu).
  run. by rewrite Hkey.
Qed.

Lemma only_the_username_is_read_witness :
  alice !! "cognito:username" =
    (<[ "cognito:groups" := VStr "admin" ]> alice) !! "cognito:username" ∧
  getVehicleAnomaly alice "VIN999" "B7" fleet =
    getVehicleAnomaly (<[ "cognito:groups" := VStr "admin" ]> alice) "VIN999" "B7" fleet.
Proof.
  assert (alice !! "cognito:username" =
            (<[ "cognito:groups" := VStr "admin" ]> alice) !! "cognito:username") as Hu
    by (vm_compute; reflexivity).
  exact (conj Hu (proj1 (proj2
    (only_the_username_is_read alice (<[ "cognito:groups" := VStr "admin" ]> alice)
       "VIN999" "B7" fleet Hu)))).
Defined.

(** *** The callback is always called *)

(** X17. Each operation ends by calling the callback: in particular the
    assignment to [anomaly_data.Item.acknowledged] never raises, a non-empty
    answer of the store's get always carrying an object [Item]. *)
Theorem callback_always_called (ticket : obj) (vin anomalyId : string) (w : world) :
  (∃ err data, (listAnomaliesByVehicle ticket vin w).1 = Cb err data) ∧
  (∃ err data, (getVehicleAnomaly ticket vin anomalyId w).1 = Cb err data) ∧
  (∃ err data, (acknowledgeVehicleAnomaly ticket vin anomalyId w).1 = Cb err data).
Proof.
  repeat split.
  - destruct (list_cases ticket vin w)
      as [(e & _ & ->) | [-> | (k & owner & _ & _ & [(e & _ & ->) | ->])]]; simpl; eauto.
  - destruct (get_cases ticket vin anomalyId w)
      as [(e & _ & ->) | [-> | (k & owner & _ & _ &
            [(e & _ & ->) | [[_ ->] | (item & _ & ->)]])]]; simpl; eauto.
  - pose proof (acknowledge_runs ticket vin anomalyId w) as Hcases.
    inversion Hcases; simpl; eauto.
Qed.
